(** * demo-app/server.py: a two-route Flask application

    The development embeds the eleven lines of [server.py] together with
    the part of Flask and Werkzeug that those lines call: the constructor
    [Flask(__name__)], the decorator [app.route], URL matching, request
    dispatch and the conversion of a view's return value into a response.
    A Python [str] is represented by its bytes under the file-system
    encoding (UTF-8 with [surrogateescape]), the form in which [os.environ]
    receives and hands out its values: a [string] here is that list of
    bytes, and the bytes that are not valid UTF-8 stand for the lone
    surrogates of the [str].  [os.environ] is a finite map from names to
    values; a view is a computation over the state of the Python process
    that may raise. *)

From Stdlib Require Import Ascii String NArith.
From stdpp Require Import gmap strings list.

Local Open Scope string_scope.

(** ** Python values, exceptions and responses *)

(** JSON documents, as produced by [flask.json.jsonify]. *)
#[warnings="-register-all"] Inductive json :=
  | JString (s : string)
  | JObject (members : list (string * json)).

(** The payload of a response.  [NoBody] is what a client receives for a
    HEAD request; [ErrorPage] is Werkzeug's HTML description of an
    [HTTPException]. *)
Inductive body :=
  | Text (s : string)
  | Json (j : json)
  | ErrorPage
  | NoBody.

(** A response: status line, Content-Type and payload.  The other headers
    (Allow, Location, Content-Length) are not modelled. *)
Record response := Response {
  status : nat;
  content_type : string;
  payload : body
}.

(** The values a view of this application can return: a [str], a [dict]
    with string keys (in insertion order), or a response object. *)
#[warnings="-register-all"] Inductive pyval :=
  | PyStr (s : string)
  | PyDict (items : list (string * pyval))
  | PyResponse (r : response).

(** Exceptions.  Werkzeug's [NotFound], [MethodNotAllowed] and
    [RequestRedirect] are [HTTPException]s with codes 404, 405 and 308. *)
Inductive exn :=
  | HTTPException (code : nat)
  | KeyError (key : string)
  | TypeError
  | UnicodeEncodeError
  | ValueError
  | OSError.

Inductive outcome (A : Type) :=
  | Return (a : A)
  | Raise (e : exn).
Arguments Return {A} a.
Arguments Raise {A} e.

Definition is_2xx (code : nat) : bool :=
  bool_decide (200 ≤ code < 300).

Definition text_html : string := "text/html; charset=utf-8".
Definition application_json : string := "application/json".

(** ** HTTP requests *)

(** The request methods of RFC 9110, and PATCH. *)
Inductive http_method :=
  | GET | HEAD | POST | PUT | DELETE | CONNECT | OPTIONS | TRACE | PATCH.

#[global] Instance http_method_eq_dec : EqDecision http_method.
Proof. solve_decision. Defined.

(** A request as Flask presents it to the application: [path] is
    [request.path].  Views may read any of the fields through the
    [request] proxy; the two views of [server.py] take no argument and do
    not import it. *)
Record request := Request {
  method : http_method;
  path : string;
  query_string : string;
  headers : list (string * string);
  data : string
}.

(** ** Strings *)

(** [strip_prefix p s] is [Some r] when [s = p ++ r]. *)
Fixpoint strip_prefix (p s : string) : option string :=
  match p, s with
  | EmptyString, _ => Some s
  | String a p', String b s' =>
      if decide (a = b) then strip_prefix p' s' else None
  | String _ _, EmptyString => None
  end.

(** [c in s] for a character [c]. *)
Fixpoint contains (c : ascii) (s : string) : bool :=
  match s with
  | EmptyString => false
  | String a s' => if decide (a = c) then true else contains c s'
  end.

Definition NUL : ascii := "000"%char.
Definition LF : ascii := "010"%char.

Definition between (lo hi : N) (c : ascii) : bool :=
  ((lo <=? N_of_ascii c) && (N_of_ascii c <=? hi))%N.

(** Is the byte string well-formed UTF-8?  The sequences are those of
    Python's strict decoder: no overlong form, no encoded surrogate,
    nothing above U+10FFFF.  A [str] read from such bytes has no lone
    surrogate. *)
Fixpoint utf8_valid (s : string) : bool :=
  match s with
  | EmptyString => true
  | String c0 s1 =>
      if between 0 127 c0 then utf8_valid s1 else
      match s1 with
      | EmptyString => false
      | String c1 s2 =>
          if between 194 223 c0 then between 128 191 c1 && utf8_valid s2 else
          match s2 with
          | EmptyString => false
          | String c2 s3 =>
              if between 224 239 c0 then
                (if between 224 224 c0 then between 160 191 c1
                 else if between 237 237 c0 then between 128 159 c1
                 else between 128 191 c1)
                && between 128 191 c2 && utf8_valid s3
              else
              match s3 with
              | EmptyString => false
              | String c3 s4 =>
                  if between 240 244 c0 then
                    (if between 240 240 c0 then between 144 191 c1
                     else if between 244 244 c0 then between 128 143 c1
                     else between 128 191 c1)
                    && between 128 191 c2 && between 128 191 c3
                    && utf8_valid s4
                  else false
              end
          end
      end
  end.

(** [s.encode()], the strict UTF-8 encoding of a [str]: the bytes
    themselves when they are well-formed, and [None], Python's
    [UnicodeEncodeError], when the [str] holds a lone surrogate. *)
Definition encode_utf8 (s : string) : option string :=
  if utf8_valid s then Some s else None.

(** Werkzeug's [re.sub("/{2,}?", "/", path)]: scanning from the left, each
    pair of adjacent slashes becomes one slash. *)
Fixpoint merge_slashes (s : string) : string :=
  match s with
  | EmptyString => EmptyString
  | String c s' =>
      match s' with
      | String c' rest =>
          if decide (c = "/"%char ∧ c' = "/"%char)
          then String "/" (merge_slashes rest)
          else String c (merge_slashes s')
      | EmptyString => String c EmptyString
      end
  end.

(** ** URL rules *)

Definition kwargs := list (string * string).

(** A URL rule.  [rule] is the literal text of the rule; when [path_arg] is
    [Some x] the literal text is followed by the converter [<path:x>].
    The rules of [server.py] are plain literals. *)
Record Rule := {
  rule : string;
  path_arg : option string;
  endpoint : string;
  methods : list http_method;
  provide_automatic_options : bool
}.

(** Does the path match the rule, and with which view arguments?  A
    [path] converter takes the rest of the URL when it matches the regular
    expression [[^/].*?] up to the end: one character that is not a slash,
    followed by characters among which there is no line feed. *)
Definition match_rule (r : Rule) (p : string) : option kwargs :=
  match path_arg r with
  | None => if decide (p = rule r) then Some [] else None
  | Some x =>
      match strip_prefix (rule r) p with
      | Some (String c rest) =>
          if decide (c = "/"%char) then None
          else if contains LF rest then None
          else Some [(x, String c rest)]
      | _ => None
      end
  end.

(** Werkzeug's [_match]: the first rule that matches the path and accepts
    the method; the methods of the rules that matched the path only are
    collected in [have_match_for].  Werkzeug tries the rules in order of
    specificity; the rules of this application match disjoint sets of
    paths, so they are tried here in the order of registration. *)
Fixpoint match_rules (rules : list Rule) (p : string) (m : http_method)
    (have_match_for : list http_method)
    : option (Rule * kwargs) * list http_method :=
  match rules with
  | [] => (None, have_match_for)
  | r :: rules' =>
      match match_rule r p with
      | Some args =>
          if decide (m ∈ methods r) then (Some (r, args), have_match_for)
          else match_rules rules' p m (have_match_for ++ methods r)%list
      | None => match_rules rules' p m have_match_for
      end
  end.

(** [MapAdapter.match] with the default [merge_slashes=True]: a path that
    matches only after merging slashes is redirected (308); a path that
    matches some rule under another method is a 405; any other path is a
    404.  [MapAdapter.match] begins by replacing the leading slashes of
    the path by one slash; that step is the identity on a [request.path],
    which is what [p] is, and is left out.  A request that asks for a
    WebSocket upgrade, which Werkzeug matches against WebSocket rules
    only, is outside this model. *)
Definition match_url (rules : list Rule) (p : string) (m : http_method)
    : Rule * kwargs + exn :=
  match match_rules rules p m [] with
  | (Some found, _) => inl found
  | (None, have) =>
      match match_rules rules (merge_slashes p) m have with
      | (Some _, _) => inr (HTTPException 308)
      | (None, []) => inr (HTTPException 404)
      | (None, _ :: _) => inr (HTTPException 405)
      end
  end.

(** ** The Python process *)

(** The state of the process that later requests can observe:
    [os.environ], and everything else (module globals, the clock, the
    random generator, open files), kept abstract in [others]. *)
Record process (H : Type) := Process {
  environ : gmap string string;
  others : H
}.
Arguments Process {H} environ others.
Arguments environ {H} p.
Arguments others {H} p.

(** Computations over the process that return or raise. *)
Definition M (H A : Type) : Type := process H → outcome A * process H.

#[global] Instance M_ret {H} : MRet (M H) := λ A a w, (Return a, w).

#[global] Instance M_bind {H} : MBind (M H) := λ A B k c w,
  match c w with
  | (Return a, w') => k a w'
  | (Raise e, w') => (Raise e, w')
  end.

Definition raise {H A} (e : exn) : M H A := λ w, (Raise e, w).

(** [try: c except Exception as e: h(e)] *)
Definition try_except {H A} (c : M H A) (h : exn → M H A) : M H A :=
  λ w, match c w with
       | (Return a, w') => (Return a, w')
       | (Raise e, w') => h e w'
       end.

(** [os.environ.get(key, default)]: a lookup that falls back to [dflt]
    when the key is absent; it never raises. *)
Definition os_environ_get {H} (key dflt : string) : M H string :=
  λ w, (Return (default dflt (environ w !! key)), w).

(** [os.environ[key] = value] and [del os.environ[key]], for the code
    around the application that changes the environment.  A name or value
    with a null byte is a [ValueError], as is a name with an equals sign;
    the empty name is an [OSError]; in each case the table is left as it
    was. *)
Definition os_environ_setitem {H} (key value : string) : M H () :=
  λ w, if contains NUL key || contains NUL value then (Raise ValueError, w)
       else if contains "="%char key then (Raise ValueError, w)
       else if decide (key = "") then (Raise OSError, w)
       else (Return (), Process (<[key := value]> (environ w)) (others w)).

Definition os_environ_delitem {H} (key : string) : M H () :=
  λ w, if contains NUL key then (Raise ValueError, w)
       else if contains "="%char key || bool_decide (key = "")
       then (Raise OSError, w)
       else match environ w !! key with
            | Some _ =>
                (Return (), Process (delete key (environ w)) (others w))
            | None => (Raise (KeyError key), w)
            end.

(** ** Flask *)

Section flask.
Context {H : Type}.

(** A view function; Flask calls it with the view arguments as keyword
    arguments. *)
Abbreviation view := (kwargs → M H pyval) (only parsing).

(** The part of a [Flask] object that request handling reads. *)
Record Flask := {
  url_map : list Rule;
  view_functions : gmap string view
}.

(** Calling a function without parameters: any keyword argument is a
    [TypeError]. *)
Definition call0 (f : M H pyval) : view :=
  λ args, match args with
          | [] => f
          | _ :: _ => raise TypeError
          end.

(** [Flask.add_url_rule] without a [methods] option: the methods default
    to [("GET",)]; OPTIONS is added and answered automatically; Werkzeug's
    [Rule] adds HEAD to every rule that has GET. *)
Definition add_url_rule (r : string) (arg : option string) (ep : string)
    (view_func : view) (a : Flask) : Flask :=
  let methods0 := [GET] in
  let automatic := bool_decide (OPTIONS ∉ methods0) in
  let methods1 := if automatic then (methods0 ++ [OPTIONS])%list else methods0 in
  let methods2 :=
    if bool_decide (GET ∈ methods1 ∧ HEAD ∉ methods1)
    then (methods1 ++ [HEAD])%list else methods1 in
  {| url_map := (url_map a ++
       [{| rule := r; path_arg := arg; endpoint := ep;
           methods := methods2; provide_automatic_options := automatic |}])%list;
     view_functions := <[ep := view_func]> (view_functions a) |}.

(** [@app.route(rule)] applied to the function [f] named [name]. *)
Definition route (r : string) (name : string) (f : M H pyval) (a : Flask)
    : Flask :=
  add_url_rule r None name (call0 f) a.

(** [Flask.send_static_file]: the file of that name in the static folder,
    or [NotFound].  [files] maps each file name under the folder to its
    MIME type and content. *)
Definition send_static_file (files : gmap string (string * string))
    : view :=
  λ args, match args with
          | [(k, filename)] =>
              if decide (k = "filename") then
                match files !! filename with
                | Some (mimetype, content) =>
                    mret (PyResponse (Response 200 mimetype (Text content)))
                | None => raise (HTTPException 404)
                end
              else raise TypeError
          | _ => raise TypeError
          end.

(** [Flask(import_name)]: with the default [static_folder="static"] the
    constructor registers the rule [/static/<path:filename>]. *)
Definition Flask_init (static_files : gmap string (string * string))
    : Flask :=
  add_url_rule "/static/" (Some "filename") "static"
    (send_static_file static_files)
    {| url_map := []; view_functions := ∅ |}.

(** [Flask.make_default_options_response] *)
Definition make_default_options_response : response :=
  Response 200 text_html (Text "").

(** [Flask.dispatch_request] *)
Definition dispatch_request (a : Flask) (req : request) : M H pyval :=
  match match_url (url_map a) (path req) (method req) with
  | inr routing_exception => raise routing_exception
  | inl (r, view_args) =>
      if provide_automatic_options r && bool_decide (method req = OPTIONS)
      then mret (PyResponse make_default_options_response)
      else match view_functions a !! endpoint r with
           | Some f => f view_args
           | None => raise (KeyError (endpoint r))
           end
  end.

(** [json.dumps]: [None] stands for the [TypeError] raised on a value
    that is not serializable. *)
Fixpoint dumps (v : pyval) : option json :=
  match v with
  | PyStr s => Some (JString s)
  | PyDict items =>
      JObject <$>
        (fix members (l : list (string * pyval)) :=
           match l with
           | [] => Some []
           | (k, x) :: l' =>
               j ← dumps x; js ← members l'; Some ((k, j) :: js)
           end) items
  | PyResponse _ => None
  end.

(** [Flask.make_response]: a [str] is encoded and becomes the body of an
    HTML response, a [dict] goes through [jsonify]; both have status 200.
    A [str] that cannot be encoded raises. *)
Definition make_response (rv : pyval) : M H response :=
  match rv with
  | PyResponse r => mret r
  | PyStr s =>
      match encode_utf8 s with
      | Some b => mret (Response 200 text_html (Text b))
      | None => raise UnicodeEncodeError
      end
  | PyDict _ =>
      match dumps rv with
      | Some j => mret (Response 200 application_json (Json j))
      | None => raise TypeError
      end
  end.

(** [Flask.handle_user_exception]: an [HTTPException] is returned as the
    response it describes; anything else is raised again. *)
Definition handle_user_exception (e : exn) : M H pyval :=
  match e with
  | HTTPException code => mret (PyResponse (Response code text_html ErrorPage))
  | _ => raise e
  end.

(** [Flask.full_dispatch_request] *)
Definition full_dispatch_request (a : Flask) (req : request)
    : M H response :=
  rv ← try_except (dispatch_request a req) handle_user_exception;
  make_response rv.

(** [Flask.handle_exception]: an unhandled exception is a 500. *)
Definition handle_exception (e : exn) : M H response :=
  mret (Response 500 text_html ErrorPage).

(** [Flask.wsgi_app]; the body of the answer to a HEAD request is not
    sent. *)
Definition wsgi_app (a : Flask) (req : request) : M H response :=
  resp ← try_except (full_dispatch_request a req) handle_exception;
  mret (if decide (method req = HEAD)
        then Response (status resp) (content_type resp) NoBody
        else resp).

End flask.
Arguments Flask H : clear implicits.

(** ** server.py *)

Section server.
Context {H : Type}.

(** [def healthz(): return {"status":"ok"}] *)
Definition healthz : M H pyval :=
  mret (PyDict [("status", PyStr "ok")]).

(** [def version(): return os.environ.get("APP_VERSION", "unknown")] *)
Definition version : M H pyval :=
  v ← os_environ_get "APP_VERSION" "unknown";
  mret (PyStr v).

(** The module body: [app = Flask(__name__)] followed by the two
    decorated definitions.  The directory of [server.py] has no [static]
    folder, so the static view finds no file. *)
Definition app : Flask H :=
  route "/version" "version" version
    (route "/healthz" "healthz" healthz
       (Flask_init ∅)).

End server.

(** ** The running process *)

Section running.
Context {H : Type}.

(** What happens in the process, in order: a request comes in and is
    answered by the application; code around the application sets or
    removes an environment variable; or something else goes on that
    touches only the rest of the state. *)
Inductive event :=
  | Incoming (req : request)
  | Setenv (key value : string)
  | Unsetenv (key : string)
  | Elsewhere (f : H → H).

Definition step (ev : event) (w : process H) : list response * process H :=
  match ev with
  | Incoming req =>
      match wsgi_app app req w with
      | (Return resp, w') => ([resp], w')
      | (Raise _, w') => ([Response 500 text_html ErrorPage], w')
      end
  | Setenv k v => ([], (os_environ_setitem k v w).2)
  | Unsetenv k => ([], (os_environ_delitem k w).2)
  | Elsewhere f => ([], Process (environ w) (f (others w)))
  end.

(** The responses sent during a history, and the process it leaves. *)
Fixpoint serve (evs : list event) (w : process H)
    : list response * process H :=
  match evs with
  | [] => ([], w)
  | ev :: evs' =>
      let '(out, w') := step ev w in
      let '(outs, w'') := serve evs' w' in
      ((out ++ outs)%list, w'')
  end.

(** A computation that leaves the process as it found it and whose result
    is determined by [os.environ] alone. *)
Definition reads_environ {A} (c : M H A) : Prop :=
  (∀ w, (c w).2 = w) ∧
  (∀ w1 w2, environ w1 = environ w2 → (c w1).1 = (c w2).1).

(** An application all of whose views are such computations. *)
Definition views_read_environ (a : Flask H) : Prop :=
  ∀ ep f args, view_functions a !! ep = Some f → reads_environ (f args).

End running.
Arguments event H : clear implicits.

(** The URLs of the static rule: [/static/] followed by a file name that
    is not empty, does not start with a slash and has no line feed after
    its first character. *)
Definition static_url (p : string) : Prop :=
  ∃ c rest, p = "/static/" ++ String c rest ∧ c ≠ "/"%char ∧
            contains LF rest = false.

(** The rule that [Flask(__name__)] registers for static files. *)
Definition static_rule : Rule :=
  {| rule := "/static/"; path_arg := Some "filename"; endpoint := "static";
     methods := [GET; OPTIONS; HEAD]; provide_automatic_options := true |}.

(** Short names for the concrete runs: a bare GET request, a process with
    an empty environment, and one started with [APP_VERSION=v]. *)
Definition get (p : string) : request := Request GET p "" [] "".

Definition fresh_process : process () := Process ∅ ().

Definition released (v : string) : process () :=
  Process {["APP_VERSION" := v]} ().

(** The effective version of a process: the value of [APP_VERSION], or
    [unknown] when the variable is unset. *)
Definition effective_version {H} (w : process H) : string :=
  default "unknown" (environ w !! "APP_VERSION").

(** What the application answers when a view has returned the [str] [s]:
    200 with the encoded [s], or 500 when [s] cannot be encoded. *)
Definition str_answer (s : string) : response :=
  match encode_utf8 s with
  | Some b => Response 200 text_html (Text b)
  | None => Response 500 text_html ErrorPage
  end.

(** The answer without its body, as sent for HEAD. *)
Definition without_body (r : response) : response :=
  Response (status r) (content_type r) NoBody.

(** The requests that run the [version] view. *)
Definition runs_version (req : request) : Prop :=
  path req = "/version" ∧ method req ∈ [GET; HEAD].

(** A byte string that is not UTF-8: the single byte 0xFF. *)
Definition not_utf8 : string := String "255"%char EmptyString.

(** The requests that are routed: the two routes of [server.py] under
    the methods of a route, and OPTIONS on a static URL. *)
Definition routed (req : request) : Prop :=
  ((path req = "/healthz" ∨ path req = "/version") ∧
   method req ∈ [GET; HEAD; OPTIONS]) ∨
  (method req = OPTIONS ∧ static_url (path req)).

(** * Properties *)

(** ** Strings and URL matching *)

Lemma strip_prefix_Some p s r :
  strip_prefix p s = Some r ↔ s = p ++ r.
Proof.
  revert s. induction p as [|a p IH]; intros s.
  - change ("" ++ r) with r. simpl. split; congruence.
  - change (String a p ++ r) with (String a (p ++ r)). simpl.
    destruct s as [|b s]; [split; discriminate|].
    case_decide as Hab.
    + subst b. rewrite IH. split; [intros ->; done | intros [= ->]; done].
    + split; [discriminate | intros [= -> _]; done].
Qed.

Lemma match_rules_found rules p m have r args have' :
  match_rules rules p m have = (Some (r, args), have') →
  r ∈ rules ∧ match_rule r p = Some args ∧ m ∈ methods r.
Proof.
  revert have. induction rules as [|r0 rules IH]; intros have; simpl.
  - discriminate.
  - destruct (match_rule r0 p) as [args0|] eqn:Hm.
    + case_decide.
      * intros [= -> -> _]. split_and!; [left | done | done].
      * intros Hrec. destruct (IH _ Hrec) as (? & ? & ?).
        split_and!; [by right | done | done].
    + intros Hrec. destruct (IH _ Hrec) as (? & ? & ?).
      split_and!; [by right | done | done].
Qed.

(** A request that is not routed to a rule raises one of Werkzeug's three
    routing exceptions. *)
Lemma match_url_exception rules p m e :
  match_url rules p m = inr e →
  e = HTTPException 308 ∨ e = HTTPException 404 ∨ e = HTTPException 405.
Proof.
  unfold match_url.
  destruct (match_rules rules p m []) as [[found|] have]; [discriminate|].
  destruct (match_rules rules (merge_slashes p) m have) as [[?|] [|? ?]];
    intros [= <-]; auto.
Qed.

Lemma match_url_found rules p m r args :
  match_url rules p m = inl (r, args) →
  r ∈ rules ∧ match_rule r p = Some args ∧ m ∈ methods r.
Proof.
  unfold match_url.
  destruct (match_rules rules p m []) as [[[r' args']|] have] eqn:Hm.
  - intros [= -> ->]. by eapply match_rules_found.
  - destruct (match_rules rules (merge_slashes p) m have) as [[?|] [|? ?]];
      discriminate.
Qed.

(** ** Computations that only read the environment *)

Create HintDb readonly.

Section readonly.
Context {H : Type}.
Implicit Types w : process H.

Lemma reads_environ_ret {A} (a : A) : reads_environ (H:=H) (mret a).
Proof. split; done. Qed.

Lemma reads_environ_raise {A} e : reads_environ (H:=H) (raise (A:=A) e).
Proof. split; done. Qed.

Lemma reads_environ_get key dflt :
  reads_environ (H:=H) (os_environ_get key dflt).
Proof.
  split; [done|]. intros w1 w2 Henv. unfold os_environ_get. simpl.
  by rewrite Henv.
Qed.

Lemma reads_environ_bind {A B} (c : M H A) (k : A → M H B) :
  reads_environ c → (∀ a, reads_environ (k a)) → reads_environ (c ≫= k).
Proof.
  intros [Hc1 Hc2] Hk. unfold mbind, M_bind. split.
  - intros w. specialize (Hc1 w).
    destruct (c w) as [[a|e] w']; simpl in *; subst; [apply Hk | done].
  - intros w1 w2 Henv.
    pose proof (Hc1 w1) as H1. pose proof (Hc1 w2) as H2.
    pose proof (Hc2 w1 w2 Henv) as H12.
    destruct (c w1) as [[a1|e1] w1'], (c w2) as [[a2|e2] w2'];
      simpl in *; subst; simplify_eq; [by apply Hk | done].
Qed.

Lemma reads_environ_try_except {A} (c : M H A) (h : exn → M H A) :
  reads_environ c → (∀ e, reads_environ (h e)) →
  reads_environ (try_except c h).
Proof.
  intros [Hc1 Hc2] Hh. unfold try_except. split.
  - intros w. specialize (Hc1 w).
    destruct (c w) as [[a|e] w']; simpl in *; subst; [done | apply Hh].
  - intros w1 w2 Henv.
    pose proof (Hc1 w1) as H1. pose proof (Hc1 w2) as H2.
    pose proof (Hc2 w1 w2 Henv) as H12.
    destruct (c w1) as [[a1|e1] w1'], (c w2) as [[a2|e2] w2'];
      simpl in *; subst; simplify_eq; [done | by apply Hh].
Qed.

End readonly.

#[global] Hint Resolve reads_environ_ret reads_environ_raise
  reads_environ_get reads_environ_bind reads_environ_try_except : readonly.

Section flask_readonly.
Context {H : Type}.

Lemma reads_environ_healthz : reads_environ (H:=H) healthz.
Proof. unfold healthz. auto with readonly. Qed.

Lemma reads_environ_version : reads_environ (H:=H) version.
Proof. unfold version. auto with readonly. Qed.

Lemma reads_environ_call0 (f : M H pyval) args :
  reads_environ f → reads_environ (call0 f args).
Proof. intros Hf. destruct args; simpl; auto with readonly. Qed.

Lemma reads_environ_send_static_file files args :
  reads_environ (H:=H) (send_static_file files args).
Proof.
  unfold send_static_file.
  repeat case_match; auto with readonly.
Qed.

Lemma reads_environ_make_response rv :
  reads_environ (H:=H) (make_response rv).
Proof. unfold make_response. repeat case_match; auto with readonly. Qed.

Lemma reads_environ_handle_user_exception e :
  reads_environ (H:=H) (handle_user_exception e).
Proof. destruct e; simpl; auto with readonly. Qed.

Lemma reads_environ_handle_exception e :
  reads_environ (H:=H) (handle_exception e).
Proof. unfold handle_exception. auto with readonly. Qed.

Lemma views_read_environ_add r arg ep (f : kwargs → M H pyval) a :
  (∀ args, reads_environ (f args)) →
  views_read_environ a →
  views_read_environ (add_url_rule r arg ep f a).
Proof.
  intros Hf Ha ep' f' args. unfold add_url_rule. simpl.
  rewrite lookup_insert_Some. intros [[_ <-]|[_ Hin]]; [apply Hf|].
  by eapply Ha.
Qed.

Lemma views_read_environ_app : views_read_environ (H:=H) app.
Proof.
  unfold app, route, Flask_init.
  repeat apply views_read_environ_add;
    intros; auto using reads_environ_call0, reads_environ_healthz,
      reads_environ_version, reads_environ_send_static_file.
  intros ep f args. simpl. by rewrite lookup_empty.
Qed.

Lemma reads_environ_dispatch_request a req :
  views_read_environ a → reads_environ (H:=H) (dispatch_request a req).
Proof.
  intros Ha. unfold dispatch_request.
  destruct (match_url _ _ _) as [[r args]|e]; [|auto with readonly].
  case_match; [auto with readonly|].
  destruct (view_functions a !! endpoint r) eqn:Hf; [|auto with readonly].
  by eapply Ha.
Qed.

Lemma reads_environ_wsgi_app a req :
  views_read_environ a → reads_environ (H:=H) (wsgi_app a req).
Proof.
  intros Ha. unfold wsgi_app, full_dispatch_request.
  auto 10 using reads_environ_dispatch_request,
    reads_environ_make_response, reads_environ_handle_user_exception,
    reads_environ_handle_exception with readonly.
Qed.

(** [wsgi_app] never lets an exception escape. *)
Lemma wsgi_app_returns a req (w : process H) :
  ∃ resp, (wsgi_app a req w).1 = Return resp.
Proof.
  unfold wsgi_app, mbind, M_bind, try_except, handle_exception.
  destruct (full_dispatch_request a req w) as [[resp|e] w']; simpl; eauto.
Qed.

End flask_readonly.

(** ** The routes of the application *)

Section routes.
Context {H : Type}.
Implicit Types w : process H.

Lemma url_map_app :
  url_map (H:=H) app =
  [ static_rule;
    {| rule := "/healthz"; path_arg := None; endpoint := "healthz";
       methods := [GET; OPTIONS; HEAD]; provide_automatic_options := true |};
    {| rule := "/version"; path_arg := None; endpoint := "version";
       methods := [GET; OPTIONS; HEAD]; provide_automatic_options := true |} ].
Proof. reflexivity. Qed.

Lemma view_functions_app_static :
  view_functions (H:=H) app !! "static" = Some (send_static_file ∅).
Proof. reflexivity. Qed.

Lemma match_rule_static p args :
  match_rule static_rule p = Some args ↔
  ∃ c rest, p = "/static/" ++ String c rest ∧ c ≠ "/"%char ∧
            contains LF rest = false ∧
            args = [("filename", String c rest)].
Proof.
  unfold match_rule. simpl path_arg. simpl rule. cbv iota beta.
  destruct (strip_prefix "/static/" p) as [[|c rest]|] eqn:Hp.
  - apply strip_prefix_Some in Hp. subst p.
    split; [discriminate|]. intros (c & rest & Heq & _).
    apply (inj (String.app "/static/")) in Heq. discriminate.
  - apply strip_prefix_Some in Hp. subst p. case_decide as Hc.
    + split; [discriminate|]. intros (c' & rest' & Heq & Hc' & _).
      apply (inj (String.app "/static/")) in Heq. congruence.
    + destruct (contains LF rest) eqn:Hlf.
      * split; [discriminate|]. intros (c' & rest' & Heq & _ & Hlf' & _).
        apply (inj (String.app "/static/")) in Heq.
        injection Heq as <- <-. congruence.
      * split.
        -- intros [= <-]. eauto 6.
        -- intros (c' & rest' & Heq & _ & _ & ->).
           apply (inj (String.app "/static/")) in Heq. by rewrite Heq.
  - split; [discriminate|]. intros (c & rest & -> & _).
    assert (strip_prefix "/static/" ("/static/" ++ String c rest)
            = Some (String c rest)) as Hs by by apply strip_prefix_Some.
    congruence.
Qed.

(** Only the static rule can match a path other than the two of
    [server.py]. *)
Lemma match_rule_app r p args :
  r ∈ url_map (H:=H) app → match_rule r p = Some args →
  p ≠ "/healthz" → p ≠ "/version" → r = static_rule.
Proof.
  rewrite url_map_app, !elem_of_cons, elem_of_nil.
  intros [->|[->|[->|[]]]]; [done | |]; unfold match_rule; simpl;
    case_decide; congruence.
Qed.



Lemma match_url_static p m :
  static_url p → m ∈ [GET; OPTIONS; HEAD] →
  ∃ args, match_url (url_map (H:=H) app) p m = inl (static_rule, args).
Proof.
  intros (c & rest & Hp & Hc & Hlf) Hm.
  assert (match_rule static_rule p = Some [("filename", String c rest)])
    as Hr by (apply match_rule_static; eauto 6).
  rewrite url_map_app. unfold match_url. simpl. rewrite Hr.
  rewrite decide_True by done. eauto.
Qed.

End routes.

(** ** Histories *)

Section histories.
Context {H : Type}.
Implicit Types (w : process H) (req : request).

Lemma serve_cons (ev : event H) evs w :
  serve (ev :: evs) w =
  ((step ev w).1 ++ (serve evs (step ev w).2).1,
   (serve evs (step ev w).2).2)%list.
Proof.
  cbn [serve]. destruct (step ev w) as [out w']. cbn [fst snd].
  by destruct (serve evs w') as [outs w''].
Qed.

Lemma serve_app (evs1 evs2 : list (event H)) w :
  serve (evs1 ++ evs2) w =
  ((serve evs1 w).1 ++ (serve evs2 (serve evs1 w).2).1,
   (serve evs2 (serve evs1 w).2).2)%list.
Proof.
  revert w. induction evs1 as [|ev evs1 IH]; intros w; simpl.
  - by destruct (serve evs2 w).
  - destruct (step ev w) as [out w']. rewrite IH.
    destruct (serve evs1 w') as [outs w'']. simpl.
    by rewrite (assoc_L (++)%list).
Qed.

(** What the requests that run [version] are answered in any state of the
    process. *)
Lemma dispatch_request_version m q h d w :
  m ∈ [GET; HEAD] →
  dispatch_request app (Request m "/version" q h d) w =
    (Return (PyStr (effective_version w)), w).
Proof.
  rewrite !elem_of_cons, elem_of_nil. by intros [-> | [-> | []]].
Qed.

Lemma wsgi_app_runs_version req w :
  runs_version req →
  wsgi_app app req w =
    (Return (if decide (method req = HEAD)
             then without_body (str_answer (effective_version w))
             else str_answer (effective_version w)), w).
Proof.
  destruct req as [m p q h d]. intros [Hp Hm]. simpl in Hp, Hm. subst p.
  unfold wsgi_app, full_dispatch_request, mbind, M_bind, try_except.
  rewrite (dispatch_request_version _ _ _ _ _ Hm).
  cbv beta iota delta [make_response str_answer].
  destruct (encode_utf8 (effective_version w));
    rewrite !elem_of_cons, elem_of_nil in Hm;
    by destruct Hm as [-> | [-> | []]].
Qed.






End histories.

(** * The claims *)

Section claims.
Context {H : Type}.
Implicit Types (w : process H) (req : request).






(** C6, as amended.  On [/healthz] and [/version] a method other than
    GET, HEAD and OPTIONS (POST, PUT, DELETE, CONNECT, TRACE or PATCH) is
    answered 405. *)
Theorem other_methods_status req w :
  path req = "/healthz" ∨ path req = "/version" →
  method req ∉ [GET; HEAD; OPTIONS] →
  wsgi_app app req w = (Return (Response 405 text_html ErrorPage), w) ∧
  is_2xx 405 = false.
Proof.
  destruct req as [m p q h d]. simpl.
  rewrite !elem_of_cons, elem_of_nil.
  intros [-> | ->] Hm; (split; [|done]); destruct m;
    first [reflexivity | exfalso; tauto].
Qed.

(** C7.  Handling a request leaves the process as it was: the
    environment table and the rest of the state are the same after
    [wsgi_app] as before, for every request, and the same holds of the two
    views themselves. *)
Theorem request_leaves_process req w :
  (wsgi_app app req w).2 = w ∧ (healthz w).2 = w ∧ (version w).2 = w ∧
  (step (Incoming req) w).2 = w.
Proof.
  pose proof (reads_environ_wsgi_app (H:=H) app req views_read_environ_app)
    as [Hw _].
  split_and!; [apply Hw | done | done |].
  simpl. specialize (Hw w). by destruct (wsgi_app app req w) as [[?|?] ?].
Qed.

(** C8.  The answer to a request depends on the request and on the
    environment table at that moment only: after two histories, from any
    two initial processes, that leave the same environment table, the
    same request gets the same answer. *)
Theorem request_independent_of_history req (evs1 evs2 : list (event H))
    w1 w2 :
  environ (serve evs1 w1).2 = environ (serve evs2 w2).2 →
  (wsgi_app app req (serve evs1 w1).2).1 =
  (wsgi_app app req (serve evs2 w2).2).1.
Proof.
  apply (reads_environ_wsgi_app (H:=H) app req views_read_environ_app).
Qed.

(** C9.  The two views return in every process: [healthz] returns its
    dictionary, and [version] returns a string whether [APP_VERSION] is
    absent, empty or set; neither raises. *)
Theorem views_total w :
  healthz w = (Return (PyDict [("status", PyStr "ok")]), w) ∧
  version w =
    (Return (PyStr (match environ w !! "APP_VERSION" with
                    | Some v => v
                    | None => "unknown"
                    end)), w).
Proof. split; reflexivity. Qed.


End claims.
(** * Concrete runs *)









(** C6: HEAD and OPTIONS, two methods other than GET, are answered 200
    on [/healthz]. *)
Lemma head_healthz_is_2xx :
  method (Request HEAD "/healthz" "" [] "") ≠ GET ∧
  wsgi_app app (Request HEAD "/healthz" "" [] "") fresh_process =
    (Return (Response 200 application_json NoBody), fresh_process) ∧
  method (Request OPTIONS "/healthz" "" [] "") ≠ GET ∧
  wsgi_app app (Request OPTIONS "/healthz" "" [] "") fresh_process =
    (Return (Response 200 text_html (Text "")), fresh_process) ∧
  is_2xx 200 = true.
Proof. split_and!; done. Qed.

Lemma other_methods_status_witness :
  (POST ∉ [GET; HEAD; OPTIONS]) ∧
  wsgi_app app (Request POST "/version" "" [] "v=9") (released not_utf8) =
    (Return (Response 405 text_html ErrorPage), released not_utf8).
Proof.
  assert (POST ∉ [GET; HEAD; OPTIONS]) as Hm.
  { rewrite !elem_of_cons, elem_of_nil. intros [|[|[|[]]]]; discriminate. }
  split; [exact Hm|].
  exact (proj1 (other_methods_status (Request POST "/version" "" [] "v=9")
                  (released not_utf8) (or_intror eq_refl) Hm)).
Defined.

Lemma request_independent_of_history_witness :
  (wsgi_app app (get "/version")
     (serve [Incoming (get "/version"); Setenv "APP_VERSION" "3";
             Incoming (Request DELETE "/healthz" "" [] "")]
        (Process ∅ 0)).2).1 =
  (wsgi_app app (get "/version")
     (serve [Setenv "APP_VERSION" "3"; Elsewhere S] (Process ∅ 7)).2).1.
Proof.
  apply (request_independent_of_history (get "/version")
           [Incoming (get "/version"); Setenv "APP_VERSION" "3";
            Incoming (Request DELETE "/healthz" "" [] "")]
           [Setenv "APP_VERSION" "3"; Elsewhere S]
           (Process ∅ 0) (Process ∅ 7)).
  reflexivity.
Defined.


(** * Further properties of the application *)

Section table.
Context {H : Type}.
Implicit Types (w : process H) (req : request).

Lemma static_url_not_route p :
  p = "/healthz" ∨ p = "/version" → ¬ static_url p.
Proof. intros [-> | ->] (c & rest & Heq & _); discriminate Heq. Qed.

(** The answer to a request that does not run [version] is fixed by the
    request; it is 200 for the routed requests and 308, 404 or 405 for the
    others. *)
Local Ltac close_table :=
  simpl; try case_decide; rewrite ?elem_of_cons, ?elem_of_nil in *;
  intuition (first [done | congruence]).

Lemma wsgi_app_table req :
  ¬ runs_version req →
  ∃ resp, (∀ w, wsgi_app app req w = (Return resp, w)) ∧
    ((routed req ∧ status resp = 200) ∨
     (¬ routed req ∧ status resp ∈ [308; 404; 405])) ∧
    (content_type resp =
       if decide (path req = "/healthz" ∧ method req ∈ [GET; HEAD])
       then application_json else text_html).
Proof.
  intros Hnot. unfold routed.
  destruct (decide (path req = "/healthz")) as [Hh|Hh];
    [|destruct (decide (path req = "/version")) as [Hv|Hv]].
  - pose proof (static_url_not_route _ (or_introl Hh)) as Hs.
    destruct req as [m p q h d]. simpl in *. subst p.
    exists (match m with
            | GET => Response 200 application_json
                       (Json (JObject [("status", JString "ok")]))
            | HEAD => Response 200 application_json NoBody
            | OPTIONS => make_default_options_response
            | _ => Response 405 text_html ErrorPage
            end).
    destruct m; (split; [intros w; reflexivity|]); close_table.
  - pose proof (static_url_not_route _ (or_intror Hv)) as Hs.
    destruct req as [m p q h d]. simpl in *. subst p.
    exists (match m with
            | OPTIONS => make_default_options_response
            | _ => Response 405 text_html ErrorPage
            end).
    destruct m;
      try (exfalso; apply Hnot; split; [done|];
           rewrite !elem_of_cons; by auto);
      (split; [intros w; reflexivity|]); close_table.
  - destruct (match_url (url_map (H:=H) app) (path req) (method req))
      as [[r args]|e] eqn:Hm.
    + destruct (match_url_found _ _ _ _ _ Hm) as (Hr & Hrule & Hmeth).
      pose proof (match_rule_app _ _ _ Hr Hrule Hh Hv) as ->.
      pose proof Hrule as (c & rest & Hp & Hc & Hlf & ->)%match_rule_static.
      assert (static_url (path req)) as Hs by (by exists c, rest).
      exists (match method req with
              | OPTIONS => make_default_options_response
              | HEAD => Response 404 text_html NoBody
              | _ => Response 404 text_html ErrorPage
              end).
      split.
      * intros w. unfold wsgi_app, full_dispatch_request, dispatch_request.
        rewrite Hm. cbv beta iota. unfold static_rule at 1 2.
        cbn [provide_automatic_options endpoint].
        rewrite view_functions_app_static.
        by destruct (method req).
      * destruct (method req); close_table.
    + destruct (match_url_exception _ _ _ _ Hm) as [-> | [-> | ->]];
        (eexists (Response _ text_html
                    (if decide (method req = HEAD) then NoBody else ErrorPage));
         split;
         [intros w; unfold wsgi_app, full_dispatch_request, dispatch_request;
          rewrite Hm; by destruct (method req)|]);
        (split; [|close_table]);
        right; (split; [|destruct (method req); simpl;
                          rewrite !elem_of_cons; auto]);
        (intros [[[?|?] _]|[Ho Hs]]; [done | done |]);
        assert (method req ∈ [GET; OPTIONS; HEAD]) as Hmem
          by (rewrite Ho, !elem_of_cons; auto);
        destruct (match_url_static (H:=H) _ _ Hs Hmem) as [args Hin];
        by rewrite Hm in Hin.
Qed.

End table.

Section dispatch_facts.
Context {H : Type}.
Implicit Types (w : process H) (req : request).

Lemma match_rules_head rules p have :
  Forall (λ r, GET ∈ methods r ↔ HEAD ∈ methods r) rules →
  match_rules rules p HEAD have = match_rules rules p GET have.
Proof.
  intros Hrules. revert have.
  induction Hrules as [|r rules Hr _ IH]; intros have; simpl; [done|].
  destruct (match_rule r p); [|apply IH].
  destruct (decide (HEAD ∈ methods r)), (decide (GET ∈ methods r));
    first [done | apply IH | exfalso; tauto].
Qed.

Lemma match_url_head p :
  match_url (url_map (H:=H) app) p HEAD = match_url (url_map (H:=H) app) p GET.
Proof.
  assert (Forall (λ r, GET ∈ methods r ↔ HEAD ∈ methods r)
            (url_map (H:=H) app)) as Hrules.
  { rewrite url_map_app. repeat constructor; simpl;
      rewrite !elem_of_cons; intros; auto. }
  unfold match_url. rewrite (match_rules_head _ _ _ Hrules).
  destruct (match_rules (url_map app) p GET []) as [[?|] have]; [done|].
  by rewrite (match_rules_head _ _ _ Hrules).
Qed.

Lemma full_dispatch_request_head p q h d w :
  full_dispatch_request app (Request HEAD p q h d) w =
  full_dispatch_request app (Request GET p q h d) w.
Proof.
  unfold full_dispatch_request, dispatch_request. cbn [method path].
  rewrite match_url_head.
  destruct (match_url (url_map app) p GET) as [[r args]|e]; [|done].
  change (bool_decide (HEAD = OPTIONS)) with false.
  change (bool_decide (GET = OPTIONS)) with false.
  by rewrite !andb_false_r.
Qed.

Lemma step_incoming req w :
  ∃ resp, wsgi_app app req w = (Return resp, w) ∧
          step (Incoming req) w = ([resp], w).
Proof.
  destruct (wsgi_app_returns app req w) as [resp Hresp].
  pose proof (proj1 (reads_environ_wsgi_app (H:=H) app req
                       views_read_environ_app) w) as Hw.
  exists resp. simpl.
  destruct (wsgi_app app req w) as [o w']. simpl in *. by subst.
Qed.

End dispatch_facts.

(** * More about the application *)

Section more.
Context {H : Type}.
Implicit Types (w : process H) (req : request).

Lemma runs_version_dec req : Decision (runs_version req).
Proof. unfold runs_version. apply _. Defined.




(** X3.  The process matters to an answer only through the effective
    version, the value of [APP_VERSION] or [unknown] when it is unset: two
    processes with the same effective version answer every request alike,
    whatever else their environments and the rest of their state hold. *)
Theorem answer_depends_on_effective_version req w1 w2 :
  default "unknown" (environ w1 !! "APP_VERSION") =
  default "unknown" (environ w2 !! "APP_VERSION") →
  (wsgi_app app req w1).1 = (wsgi_app app req w2).1.
Proof.
  intros Hv. destruct (runs_version_dec req) as [Hr|Hn].
  - rewrite !(wsgi_app_runs_version _ _ Hr). unfold effective_version.
    simpl. by rewrite Hv.
  - destruct (wsgi_app_table (H:=H) req Hn) as (resp & Hw & _).
    by rewrite !Hw.
Qed.

(** X4.  GET and HEAD on [/version] are the only requests whose answer
    depends on the process: every other request is answered alike in any
    two processes. *)
Theorem only_version_reads_process req w1 w2 :
  ¬ runs_version req →
  (wsgi_app app req w1).1 = (wsgi_app app req w2).1.
Proof.
  intros Hn. destruct (wsgi_app_table (H:=H) req Hn) as (resp & Hw & _).
  by rewrite !Hw.
Qed.

(** X5.  On every path, the answer to HEAD has the status and the
    Content-Type of the answer to GET, and no body. *)
Theorem head_mirrors_get p q h d w :
  ∃ resp, wsgi_app app (Request GET p q h d) w = (Return resp, w) ∧
          wsgi_app app (Request HEAD p q h d) w =
            (Return (Response (status resp) (content_type resp) NoBody), w).
Proof.
  destruct (step_incoming (Request GET p q h d) w) as (resp & Hg & _).
  exists resp. split; [exact Hg|].
  revert Hg. unfold wsgi_app, mbind, M_bind, try_except. simpl.
  rewrite full_dispatch_request_head.
  destruct (full_dispatch_request app (Request GET p q h d) w)
    as [[r|e] w']; simpl; by intros [= <- <-].
Qed.


(** X7.  A request put anywhere into a history adds its one answer at
    that place; the answers to everything else and the process the history
    leaves are what they are without it. *)
Theorem request_adds_one_answer (evs1 evs2 : list (event H)) req w :
  ∃ resp,
    wsgi_app app req (serve evs1 w).2 = (Return resp, (serve evs1 w).2) ∧
    (serve (evs1 ++ Incoming req :: evs2) w).1 =
      ((serve evs1 w).1 ++ resp :: (serve evs2 (serve evs1 w).2).1)%list ∧
    (serve (evs1 ++ evs2) w).1 =
      ((serve evs1 w).1 ++ (serve evs2 (serve evs1 w).2).1)%list ∧
    (serve (evs1 ++ Incoming req :: evs2) w).2 = (serve (evs1 ++ evs2) w).2.
Proof.
  destruct (step_incoming req (serve evs1 w).2) as (resp & Hw & Hs).
  exists resp. rewrite !serve_app, serve_cons, Hs. by split_and!.
Qed.

(** X8.  A request can be repeated: sent [n] times in a row it gets the
    same answer [n] times and the process is left as it was. *)
Theorem request_repeatable n req w :
  ∃ resp, wsgi_app app req w = (Return resp, w) ∧
          serve (replicate n (Incoming req)) w = (replicate n resp, w).
Proof.
  destruct (step_incoming req w) as (resp & Hw & Hs).
  exists resp. split; [exact Hw|].
  induction n as [|n IH]; [done|].
  cbn [replicate]. rewrite serve_cons, Hs. cbn [fst snd]. by rewrite IH.
Qed.

End more.

Lemma answer_depends_on_effective_version_witness :
  default "unknown"
    (environ (Process {["PATH" := "/usr/bin"]} 0) !! "APP_VERSION") =
  default "unknown"
    (environ (Process {["APP_VERSION" := "unknown"]} 1) !! "APP_VERSION") ∧
  (wsgi_app app (get "/version") (Process {["PATH" := "/usr/bin"]} 0)).1 =
  (wsgi_app app (get "/version") (Process {["APP_VERSION" := "unknown"]} 1)).1.
Proof.
  split; [reflexivity|].
  apply (answer_depends_on_effective_version (get "/version")
           (Process {["PATH" := "/usr/bin"]} 0)
           (Process {["APP_VERSION" := "unknown"]} 1)).
  reflexivity.
Defined.

Lemma only_version_reads_process_witness :
  ¬ runs_version (Request OPTIONS "/version" "" [] "") ∧
  (wsgi_app app (Request OPTIONS "/version" "" [] "")
     (Process {["APP_VERSION" := "1.0"]} 0)).1 =
  (wsgi_app app (Request OPTIONS "/version" "" [] "")
     (Process {["APP_VERSION" := not_utf8]} 1)).1.
Proof.
  assert (¬ runs_version (Request OPTIONS "/version" "" [] "")) as Hn.
  { intros [_ Hm]. simpl in Hm. rewrite !elem_of_cons, elem_of_nil in Hm.
    destruct Hm as [Hm | [Hm | []]]; discriminate Hm. }
  split; [exact Hn|].
  exact (only_version_reads_process (Request OPTIONS "/version" "" [] "")
           (Process {["APP_VERSION" := "1.0"]} 0)
           (Process {["APP_VERSION" := not_utf8]} 1) Hn).
Defined.
